(** * Sentry certificate-signing server and runtime certificate chain loading

    A shallow embedding of

    - the gRPC handler [SignCertificate] / [signCertificate] of the Sentry
      server (package [server]), and
    - [GetCertChain], [CertPool], [GetSidecarAuthenticator] and
      [generateCSRAndPrivateKey] of [pkg/runtime/security/security.go],

    together with the properties the specification states about them.

    Conventions of the embedding.

    - A Go [(value, error)] result is a pair whose second component is an
      [option]: [None] is the nil error.  A nil pointer result is [None].
    - A Go [error] is observed only through its [Error()] text, so it is a
      [string].
    - Collaborators behind interfaces (validators, the certificate
      authority) are stateful: their methods transform an abstract [World].
    - Every call that leaves the handler (monitoring, logging, validator,
      PEM/X.509 library, certificate authority) is recorded as an [Event],
      in program order.
    - A run-time panic is an outcome of its own, distinct from returning. *)

From Stdlib Require Import ZArith Ascii String List.
From stdpp Require Import base option list strings gmap.

Local Open Scope Z_scope.
Local Open Scope string_scope.
Local Open Scope list_scope.

(** Go's [[]byte]. *)
Abbreviation bytes := (list Byte.byte).

(** Go's [error], observed through [Error()]. *)
Abbreviation error := string (only parsing).

(** [[]byte(s)] for a Go string [s]. *)
Definition bytes_of_string (s : string) : bytes := String.list_byte_of_string s.

Module Sentry.

(** ** Data model *)

(** [sentryv1pb.SignCertificateRequest_TokenValidator] is an [int32] enum;
    [SignCertificateRequest_UNKNOWN] is its zero value. *)
Abbreviation TokenValidator := Z (only parsing).
Definition SignCertificateRequest_UNKNOWN : TokenValidator := 0.

(** [sentryv1pb.SignCertificateRequest]: the fields the handler reads. *)
Record SignCertificateRequest := {
  Id : string;
  Token : string;
  Namespace : string;
  CertificateSigningRequest : bytes;
  req_TokenValidator : TokenValidator;
}.

(** [codes.Code] of gRPC, restricted to the codes the handler produces. *)
Inductive Code := InvalidArgument | PermissionDenied | Internal.

#[global] Instance Code_eq_dec : EqDecision Code.
Proof. solve_decision. Defined.

(** A gRPC status error, as built by [status.Error]. *)
Record Status := { code : Code; message : string }.

Definition status_Error (c : Code) (msg : string) : Status :=
  {| code := c; message := msg |}.

(** [pem.Block]. *)
Record pem_Block := { Type_ : string; Bytes : bytes }.

(** [crypto.PublicKey] is an opaque value the handler only forwards; it is
    represented by its encoding. *)
Abbreviation PublicKey := bytes (only parsing).

(** [x509.CertificateRequest]: the fields the handler reads. *)
Record x509_CertificateRequest := {
  csr_PublicKey : PublicKey;
  csr_SignatureAlgorithm : Z;
}.

(** [time.Time], as Unix seconds and the nanosecond offset within the second. *)
Record time_Time := { Unix : Z; Nanosecond : Z }.

(** [timestamppb.Timestamp]. *)
Record Timestamp := { Seconds : Z; Nanos : Z }.

(** [timestamppb.New]. *)
Definition timestamppb_New (t : time_Time) : Timestamp :=
  {| Seconds := Unix t; Nanos := Nanosecond t |}.

(** [x509.Certificate]: the fields the handler and the encoder read. *)
Record x509_Certificate := { Raw : bytes; NotAfter : time_Time }.

(** [spiffeid.TrustDomain]; [String()] returns the name. *)
Record TrustDomain := { td_String : string }.

(** [ca.SignRequest]. *)
Record SignRequest := {
  sr_PublicKey : PublicKey;
  sr_SignatureAlgorithm : Z;
  sr_TrustDomain : string;
  sr_Namespace : string;
  sr_AppID : string;
  sr_DNS : list string;
}.

(** [sentryv1pb.SignCertificateResponse]. *)
Record SignCertificateResponse := {
  WorkloadCertificate : bytes;
  TrustChainCertificates : list bytes;
  ValidUntil : Timestamp;
}.

(** ** Observable calls *)

Inductive LogLevel := Debug | Info | Error.

Inductive Event :=
| CertSignRequestReceived                 (* monitoring.CertSignRequestReceived() *)
| CertSignFailed (reason : string)        (* monitoring.CertSignFailed(reason) *)
| CertSignSucceed                         (* monitoring.CertSignSucceed() *)
| Log (lvl : LogLevel) (format : string) (args : list string)
| CallValidate (kind : TokenValidator)    (* s.vals[kind].Validate(ctx, req) *)
| CallPemDecode                           (* pem.Decode *)
| CallParseCertificateRequest             (* x509.ParseCertificateRequest *)
| CallCheckSignature                      (* csr.CheckSignature *)
| CallSignIdentity (sr : SignRequest)     (* s.ca.SignIdentity(ctx, sr) *)
| CallEncodeX509Chain                     (* secpem.EncodeX509Chain *)
| CallTrustAnchors.                       (* s.ca.TrustAnchors() *)

(** Library and package-level functions the handler calls.  Their code is
    outside the server package; the handler is verified for every
    implementation of them. *)
Class Externals := {
  (** [TokenValidator.String()] of the generated enum. *)
  TokenValidator_String : TokenValidator -> string;
  (** [pem.Decode], first result ([nil] when no block is found). *)
  pem_Decode : bytes -> option pem_Block;
  (** [x509.ParseCertificateRequest]. *)
  x509_ParseCertificateRequest : bytes -> x509_CertificateRequest * option error;
  (** The [CheckSignature] method of [x509.CertificateRequest]. *)
  CheckSignature : x509_CertificateRequest -> option error;
  (** [secpem.EncodeX509Chain]. *)
  secpem_EncodeX509Chain : list x509_Certificate -> bytes * option error;
  (** [security.CurrentNamespace()]. *)
  security_CurrentNamespace : string;
}.

(** The outcome of running Go code: it returns a value or panics. *)
Inductive outcome (A : Type) :=
| Return (a : A)
| Panic (msg : string).
Arguments Return {A} a.
Arguments Panic {A} msg.

(** Lines 155-163: the DNS subject alternative names, a [switch] over
    [req.Namespace], [req.Id] and [security.CurrentNamespace()]. *)
Definition dns (currentNamespace namespace id : string) : list string :=
  if String.eqb namespace currentNamespace && String.eqb id "dapr-injector"
  then ["dapr-sidecar-injector." +:+ namespace +:+ ".svc"]
  else if String.eqb namespace currentNamespace && String.eqb id "dapr-operator"
  then ["dapr-webhook." +:+ namespace +:+ ".svc"]
  else [id +:+ "." +:+ namespace +:+ ".svc.cluster.local"].

(** *** Reading the call log *)

Definition is_monitoring (e : Event) : bool :=
  match e with
  | CertSignRequestReceived | CertSignFailed _ | CertSignSucceed => true
  | _ => false
  end.

Definition is_validate_call (e : Event) : bool :=
  match e with CallValidate _ => true | _ => false end.

Definition is_ca_call (e : Event) : bool :=
  match e with CallSignIdentity _ | CallTrustAnchors => true | _ => false end.

(** The monitoring counters incremented, in order. *)
Definition monitoring (evs : list Event) : list Event := List.filter is_monitoring evs.

(** The calls made to validators. *)
Definition validate_calls (evs : list Event) : list Event := List.filter is_validate_call evs.

(** The calls made to the certificate authority. *)
Definition ca_calls (evs : list Event) : list Event := List.filter is_ca_call evs.

Section Server.
Context {World : Type}.
Context `{!Externals}.

(** *** The effect monad: collaborator state and the call log *)

Definition M (A : Type) : Type := World -> outcome A * World * list Event.

Definition ret {A} (a : A) : M A := fun w => (Return a, w, []).

Definition bind {A B} (m : M A) (f : A -> M B) : M B := fun w =>
  match m w with
  | (Return a, w1, e1) =>
      match f a w1 with (o, w2, e2) => (o, w2, e1 ++ e2) end
  | (Panic msg, w1, e1) => (Panic msg, w1, e1)
  end.

(** Record a call that has no result the handler uses. *)
Definition emit (e : Event) : M unit := fun w => (Return tt, w, [e]).

(** Call a pure library function. *)
Definition call {A} (e : Event) (a : A) : M A := fun w => (Return a, w, [e]).

(** Call a method of a stateful collaborator. *)
Definition invoke {A} (e : Event) (f : World -> A * World) : M A := fun w =>
  match f w with (a, w') => (Return a, w', [e]) end.

Definition panic {A} (msg : string) : M A := fun w => (Panic msg, w, []).

Notation "x <- m ;; k" := (bind m (fun x => k))
  (at level 100, m at next level, right associativity).
Notation "m ;;; k" := (bind m (fun _ => k))
  (at level 100, right associativity).

(** *** Collaborator interfaces *)

(** [validator.Validator]. *)
Record Validator := {
  Validate : SignCertificateRequest -> World -> (TrustDomain * option error) * World;
}.

(** [ca.Signer]: the methods the handler calls.  A chain is a Go slice of
    certificate pointers; the certificates of a returned chain are taken to
    be non-nil, so reading a field of [chain[0]] can fail only because the
    chain is empty. *)
Record Signer := {
  SignIdentity : SignRequest -> World -> (list x509_Certificate * option error) * World;
  TrustAnchors : World -> bytes * World;
}.

(** [server].  The validators registered in [vals] are non-nil. *)
Record server := {
  vals : gmap Z Validator;
  defaultValidator : TokenValidator;
  ca : Signer;
}.

(** *** signCertificate *)

(** Lines 110-113: the validator kind the request is handled under. *)
Definition effectiveValidator (s : server) (req : SignCertificateRequest) : TokenValidator :=
  if negb (Z.eqb (req_TokenValidator req) SignCertificateRequest_UNKNOWN)
     && negb (String.eqb (TokenValidator_String (req_TokenValidator req)) "")
  then req_TokenValidator req
  else defaultValidator s.

(** The argument of [SignIdentity], lines 165-172. *)
Definition signRequest (req : SignCertificateRequest) (trustDomain : TrustDomain)
    (csr : x509_CertificateRequest) : SignRequest :=
  {| sr_PublicKey := csr_PublicKey csr;
     sr_SignatureAlgorithm := csr_SignatureAlgorithm csr;
     sr_TrustDomain := td_String trustDomain;
     sr_Namespace := Namespace req;
     sr_AppID := Id req;
     sr_DNS := dns security_CurrentNamespace (Namespace req) (Id req) |}.

Definition signCertificate (s : server) (req : SignCertificateRequest)
    : M (option SignCertificateResponse * option Status) :=
  let validator := effectiveValidator s req in
  if Z.eqb validator SignCertificateRequest_UNKNOWN then
    ret (None, Some (status_Error InvalidArgument
                       "a validator name must be specified in this environment"))
  else
  match vals s !! validator with
  | None =>
    ret (None, Some (status_Error InvalidArgument "the requested validator is not enabled"))
  | Some _ =>
  emit (Log Debug "Processing SignCertificate request for %s/%s (validator: %s)"
          [Namespace req; Id req; TokenValidator_String validator]) ;;;
  match vals s !! validator with
  | None => panic "invalid memory address or nil pointer dereference"
  | Some v =>
  r <- invoke (CallValidate validator) (Validate v req) ;;
  let '(trustDomain, err) := r in
  match err with
  | Some err => ret (None, Some (status_Error PermissionDenied err))
  | None =>
  der <- call CallPemDecode (pem_Decode (CertificateSigningRequest req)) ;;
  match der with
  | None =>
    emit (Log Debug "Invalid CSR: PEM block is nil" []) ;;;
    ret (None, Some (status_Error InvalidArgument "invalid certificate signing request"))
  | Some der =>
  if negb (String.eqb (Type_ der) "CERTIFICATE REQUEST")
     && negb (String.eqb (Type_ der) "CERTIFICATE") then
    emit (Log Debug "Invalid CSR: PEM block type is invalid: %q" [Type_ der]) ;;;
    ret (None, Some (status_Error InvalidArgument "invalid certificate signing request"))
  else
  r <- call CallParseCertificateRequest (x509_ParseCertificateRequest (Bytes der)) ;;
  let '(csr, err) := r in
  match err with
  | Some err =>
    emit (Log Debug "Failed to parse CSR: %v" [err]) ;;;
    ret (None, Some (status_Error InvalidArgument
                       ("failed to parse certificate signing request: " +:+ err)))
  | None =>
  sigerr <- call CallCheckSignature (CheckSignature csr) ;;
  match sigerr with
  | Some _ =>
    emit (Log Debug "Invalid CSR: invalid signature" []) ;;;
    ret (None, Some (status_Error InvalidArgument "invalid signature"))
  | None =>
  let sr := signRequest req trustDomain csr in
  r <- invoke (CallSignIdentity sr) (SignIdentity (ca s) sr) ;;
  let '(chain, err) := r in
  match err with
  | Some err =>
    emit (Log Error "Error signing identity: %v" [err]) ;;;
    ret (None, Some (status_Error Internal "failed to sign certificate"))
  | None =>
  r <- call CallEncodeX509Chain (secpem_EncodeX509Chain chain) ;;
  let '(chainPEM, err) := r in
  match err with
  | Some err =>
    emit (Log Error "Error encoding certificate chain: %v" [err]) ;;;
    ret (None, Some (status_Error Internal "failed to encode certificate chain"))
  | None =>
  (* The composite literal of lines 184-190: its calls run left to right,
     [s.ca.TrustAnchors()] before the operand [chain[0]] is read. *)
  trustAnchors <- invoke CallTrustAnchors (TrustAnchors (ca s)) ;;
  match chain with
  | [] => panic "index out of range [0] with length 0"
  | chain0 :: _ =>
    ret (Some {| WorkloadCertificate := chainPEM;
                 TrustChainCertificates := [trustAnchors];
                 ValidUntil := timestamppb_New (NotAfter chain0) |},
         None)
  end end end end end end end end end.

(** *** SignCertificate, the gRPC method *)

Definition SignCertificate (s : server) (req : SignCertificateRequest)
    : M (option SignCertificateResponse * option Status) :=
  emit CertSignRequestReceived ;;;
  r <- signCertificate s req ;;
  let '(resp, err) := r in
  match err with
  | Some err =>
    emit (CertSignFailed "sign") ;;;
    ret (None, Some err)
  | None =>
    emit CertSignSucceed ;;;
    ret (resp, None)
  end.

(** *** Stages of the pipeline, as conditions on a run *)

(** The effective kind is specified and [v] is registered under it. *)
Definition resolved (s : server) (req : SignCertificateRequest) (v : Validator) : Prop :=
  effectiveValidator s req <> SignCertificateRequest_UNKNOWN /\
  vals s !! effectiveValidator s req = Some v.

(** From world [w], the resolved validator accepts the request with trust
    domain [td], leaving world [w1]. *)
Definition authenticated (s : server) (req : SignCertificateRequest)
    (w : World) (td : TrustDomain) (w1 : World) : Prop :=
  exists v, resolved s req v /\ Validate v req w = ((td, None), w1).

(** The request's CSR decodes to an accepted PEM block, parses to [csr]
    and carries a valid self-signature. *)
Definition inspected (req : SignCertificateRequest) (csr : x509_CertificateRequest) : Prop :=
  exists der,
    pem_Decode (CertificateSigningRequest req) = Some der /\
    (Type_ der = "CERTIFICATE REQUEST" \/ Type_ der = "CERTIFICATE") /\
    x509_ParseCertificateRequest (Bytes der) = (csr, None) /\
    CheckSignature csr = None.

(** The run returns the error [st] and a nil response, leaves world [w'],
    and has made no call to the certificate authority. *)
Definition rejects (s : server) (req : SignCertificateRequest) (w : World)
    (st : Status) (w' : World) : Prop :=
  exists evs,
    signCertificate s req w = (Return (None, Some st), w', evs) /\ ca_calls evs = [].

End Server.

(** *** Symbolic execution of the handler *)

(** Unfold the handler past validator resolution, given that the effective
    kind is specified ([Hk]) and registered ([Hv]). *)
Ltac enter Hk Hv :=
  unfold signCertificate; cbv zeta;
  rewrite (proj2 (Z.eqb_neq _ _) Hk), !Hv;
  unfold bind, emit, invoke, call, ret, panic.

(** Run the handler one collaborator answer further. *)
Ltac answer H := rewrite H; cbn [negb andb].

End Sentry.

Module Security.

(** ** Data model *)

(** [credentials.CertChain]. *)
Record CertChain := { RootCA : bytes; Cert : bytes; Key : bytes }.

(** The process environment; [os.Getenv] yields the empty string for a
    variable that is not set. *)
Definition os_Getenv (env : gmap string string) (key : string) : string :=
  default "" (env !! key).

Section GetCertChain.
(** The names in package [consts]. *)
Variables TrustAnchorsEnvVar CertChainEnvVar CertKeyEnvVar : string.

Definition GetCertChain (env : gmap string string) : option CertChain * option error :=
  let trustAnchors := os_Getenv env TrustAnchorsEnvVar in
  if String.eqb trustAnchors "" then
    (None, Some ("couldn't find trust anchors in environment variable " +:+ TrustAnchorsEnvVar))
  else
  let cert := os_Getenv env CertChainEnvVar in
  if String.eqb cert "" then
    (None, Some ("couldn't find cert chain in environment variable " +:+ CertChainEnvVar))
  else
  let key := os_Getenv env CertKeyEnvVar in
  if String.eqb cert "" then
    (None, Some ("couldn't find cert key in environment variable " +:+ CertKeyEnvVar))
  else
    (Some {| RootCA := bytes_of_string trustAnchors;
             Cert := bytes_of_string cert;
             Key := bytes_of_string key |},
     None).
End GetCertChain.

End Security.

(** * The rest of [pkg/runtime/security/security.go]

    [CertPool], [GetSidecarAuthenticator] and [generateCSRAndPrivateKey].
    The crypto library and [newAuthenticator] (another file of the package)
    are parameters; key generation and CSR creation read [rand.Reader], so
    they transform the world. *)

Module RuntimeSecurity.
Import Sentry Security.

(** The constant [ecPKType]. *)
Definition ecPKType : string := "EC PRIVATE KEY".

(** [pkix.Name]: the field the package sets. *)
Record pkix_Name := { CommonName : string }.

(** [x509.CertificateRequest] used as the template of a new request: the
    fields the package sets. *)
Record csr_Template := { Subject : pkix_Name; DNSNames : list string }.

(** The calls that leave the package. *)
Inductive Call :=
| MTLSInitFailed (reason : string)     (* diag.DefaultMonitoring.MTLSInitFailed(reason) *)
| LogInfo (msg : string)               (* log.Info(msg) *)
| GenerateKey                          (* ecdsa.GenerateKey(elliptic.P256(), rand.Reader) *)
| MarshalECPrivateKey                  (* x509.MarshalECPrivateKey(key) *)
| EncodeToMemory (b : pem_Block)       (* pem.EncodeToMemory(&b) *)
| CreateCertificateRequest (t : csr_Template).
                                       (* x509.CreateCertificateRequest(rand.Reader, &t, key) *)

Definition is_MTLSInitFailed (c : Call) : bool :=
  match c with MTLSInitFailed _ => true | _ => false end.

(** The failures reported to monitoring, in order. *)
Definition init_failures (cs : list Call) : list Call := List.filter is_MTLSInitFailed cs.

Section Runtime.
Context {World PrivateKey Pool Authenticator : Type}.

(** [ecdsa.GenerateKey(elliptic.P256(), rand.Reader)]. *)
Variable ecdsa_GenerateKey : World -> (PrivateKey * option error) * World.
(** [x509.MarshalECPrivateKey]. *)
Variable x509_MarshalECPrivateKey : PrivateKey -> bytes * option error.
(** [pem.EncodeToMemory]. *)
Variable pem_EncodeToMemory : pem_Block -> bytes.
(** [x509.CreateCertificateRequest(rand.Reader, template, key)]. *)
Variable x509_CreateCertificateRequest :
  csr_Template -> PrivateKey -> World -> (bytes * option error) * World.
(** [x509.NewCertPool()] and the [AppendCertsFromPEM] method, which returns
    the extended pool and whether any certificate was added. *)
Variable x509_NewCertPool : Pool.
Variable AppendCertsFromPEM : Pool -> bytes -> Pool * bool.

(** The effect monad of the package, of the same shape as the server's. *)
Definition R (A : Type) : Type := World -> outcome A * World * list Call.

Definition ret {A} (a : A) : R A := fun w => (Return a, w, []).

Definition bind {A B} (m : R A) (f : A -> R B) : R B := fun w =>
  match m w with
  | (Return a, w1, c1) =>
      match f a w1 with (o, w2, c2) => (o, w2, c1 ++ c2) end
  | (Panic msg, w1, c1) => (Panic msg, w1, c1)
  end.

Definition emit (c : Call) : R unit := fun w => (Return tt, w, [c]).

Definition call {A} (c : Call) (a : A) : R A := fun w => (Return a, w, [c]).

Definition invoke {A} (c : Call) (f : World -> A * World) : R A := fun w =>
  match f w with (a, w') => (Return a, w', [c]) end.

Definition panic {A} (msg : string) : R A := fun w => (Panic msg, w, []).

Notation "x <- m ;; k" := (bind m (fun x => k))
  (at level 100, m at next level, right associativity).
Notation "m ;;; k" := (bind m (fun _ => k))
  (at level 100, right associativity).

(** [newAuthenticator], defined in another file of the package. *)
Variable newAuthenticator :
  string -> option Pool -> bytes -> bytes ->
  (string -> R (bytes * bytes * option error)) -> Authenticator.

(** Lines 26-33.  The pool is a pointer: [None] is nil. *)
Definition CertPool (certPem : bytes) : option Pool * option error :=
  let cp := x509_NewCertPool in
  let '(cp, ok) := AppendCertsFromPEM cp certPem in
  if negb ok then
    (None, Some "failed to append PEM root cert to x509 CertPool")
  else
    (Some cp, None).

(** Lines 66-94.  A nil byte slice is the empty list. *)
Definition generateCSRAndPrivateKey (id : string) : R (bytes * bytes * option error) :=
  if String.eqb id "" then
    ret ([], [], Some "id must not be empty")
  else
  r <- invoke GenerateKey ecdsa_GenerateKey ;;
  let '(key, err) := r in
  match err with
  | Some err =>
    emit (MTLSInitFailed "prikeygen") ;;;
    ret ([], [], Some ("failed to generate private key: " +:+ err))
  | None =>
  r <- call MarshalECPrivateKey (x509_MarshalECPrivateKey key) ;;
  let '(encodedKey, err) := r in
  match err with
  | Some err =>
    emit (MTLSInitFailed "prikeyenc") ;;;
    ret ([], [], Some err)
  | None =>
  let block := {| Type_ := ecPKType; Bytes := encodedKey |} in
  keyPem <- call (EncodeToMemory block) (pem_EncodeToMemory block) ;;
  let csr := {| Subject := {| CommonName := id |}; DNSNames := [id] |} in
  r <- invoke (CreateCertificateRequest csr) (x509_CreateCertificateRequest csr key) ;;
  let '(csrb, err) := r in
  match err with
  | Some err =>
    emit (MTLSInitFailed "csr") ;;;
    ret ([], [], Some ("failed to create sidecar csr: " +:+ err))
  | None =>
    ret (csrb, keyPem, None)
  end end end.

(** Lines 56-64.  [certChain] is a pointer: [None] is nil. *)
Definition GetSidecarAuthenticator (sentryAddress : string) (certChain : option CertChain)
    : R (option Authenticator * option error) :=
  match certChain with
  | None => panic "invalid memory address or nil pointer dereference"
  | Some certChain =>
  let '(trustAnchors, err) := CertPool (RootCA certChain) in
  match err with
  | Some err => ret (None, Some err)
  | None =>
  emit (LogInfo "Trust anchors and cert chain extracted successfully") ;;;
  ret (Some (newAuthenticator sentryAddress trustAnchors (Cert certChain) (Key certChain)
               generateCSRAndPrivateKey),
       None)
  end end.

End Runtime.

(** Split a goal about [generateCSRAndPrivateKey id w], built on the library
    functions [gen], [marshal] and [create], into its five ends: empty id,
    key generation failure, marshalling failure, CSR creation failure,
    success. *)
Ltac generate_cases gen marshal create id w :=
  unfold generateCSRAndPrivateKey;
  destruct (String.eqb_spec id "") as [Hid | Hid];
  [ | unfold bind, emit, invoke, call, ret;
      destruct (gen w) as [[key [gerr|]] w1] eqn:Hgen;
  [ | destruct (marshal key) as [der [merr|]] eqn:Hmar;
  [ | destruct (create {| Subject := {| CommonName := id |}; DNSNames := [id] |} key w1)
        as [[out [cerr|]] w2] eqn:Hcsr ] ] ].

End RuntimeSecurity.

(** * Test doubles

    Concrete collaborators, in the manner of the fakes of a Go test: a
    colon-separated stand-in for PEM, a parser and signature check driven by
    the first byte of the body, a token validator and a certificate authority
    that counts its calls in the world. *)

Module Fixtures.
Import Sentry.

Definition enumName (k : Z) : string :=
  match k with
  | 0 => "UNKNOWN" | 1 => "INSECURE" | 2 => "KUBERNETES" | 3 => "JWKS"
  | _ => "TokenValidator"
  end.

(** Split a string at its first colon. *)
Fixpoint cut (s : string) : option (string * string) :=
  match s with
  | EmptyString => None
  | String c rest =>
      if Ascii.eqb c ":"%char then Some (EmptyString, rest)
      else match cut rest with
           | Some (a, b) => Some (String c a, b)
           | None => None
           end
  end.

Definition fakeDecode (b : bytes) : option pem_Block :=
  match cut (String.string_of_list_byte b) with
  | Some (ty, body) => Some {| Type_ := ty; Bytes := bytes_of_string body |}
  | None => None
  end.

Definition fakeParse (b : bytes) : x509_CertificateRequest * option error :=
  match String.string_of_list_byte b with
  | String "!"%char _ =>
      ({| csr_PublicKey := []; csr_SignatureAlgorithm := 0 |}, Some "asn1: syntax error")
  | String "?"%char _ => ({| csr_PublicKey := b; csr_SignatureAlgorithm := 0 |}, None)
  | _ => ({| csr_PublicKey := b; csr_SignatureAlgorithm := 10 |}, None)
  end.

Definition fakeCheckSignature (csr : x509_CertificateRequest) : option error :=
  if Z.eqb (csr_SignatureAlgorithm csr) 0
  then Some "x509: cannot verify signature: algorithm unimplemented"
  else None.

Definition fakeEncode (chain : list x509_Certificate) : bytes * option error :=
  if existsb (fun c => Nat.eqb (length (Raw c)) 0) chain
  then ([], Some "certificate has no raw bytes")
  else (concat (List.map Raw chain), None).

Definition fakes : Externals := {|
  TokenValidator_String := enumName;
  pem_Decode := fakeDecode;
  x509_ParseCertificateRequest := fakeParse;
  CheckSignature := fakeCheckSignature;
  secpem_EncodeX509Chain := fakeEncode;
  security_CurrentNamespace := "dapr-system";
|}.

(** An encoder that refuses the empty chain, and the fakes with it. *)
Definition strictEncode (chain : list x509_Certificate) : bytes * option error :=
  match chain with
  | [] => ([], Some "no certificates in chain")
  | _ :: _ => fakeEncode chain
  end.

Definition strictFakes : Externals := {|
  TokenValidator_String := enumName;
  pem_Decode := fakeDecode;
  x509_ParseCertificateRequest := fakeParse;
  CheckSignature := fakeCheckSignature;
  secpem_EncodeX509Chain := strictEncode;
  security_CurrentNamespace := "dapr-system";
|}.

(** The world of the fakes: how many times the certificate authority signed. *)
Definition tokenValidator : @Validator nat :=
  {| Validate req w :=
       if String.eqb (Token req) "good"
       then ({| td_String := "cluster.local" |}, None, w)
       else ({| td_String := "" |}, Some "token rejected", w) |}.

Definition leaf : x509_Certificate :=
  {| Raw := bytes_of_string "LEAF"; NotAfter := {| Unix := 1700086400; Nanosecond := 0 |} |}.
Definition issuer : x509_Certificate :=
  {| Raw := bytes_of_string "ISSUER"; NotAfter := {| Unix := 1731536000; Nanosecond := 0 |} |}.
Definition blank : x509_Certificate :=
  {| Raw := []; NotAfter := {| Unix := 1700086400; Nanosecond := 0 |} |}.

Definition countingCA : @Signer nat :=
  {| SignIdentity sr n :=
       if String.eqb (sr_AppID sr) "unsignable" then ([], Some "issuer key unavailable", S n)
       else if String.eqb (sr_AppID sr) "nochain" then ([], None, S n)
       else if String.eqb (sr_AppID sr) "unencodable" then ([blank], None, S n)
       else ([leaf; issuer], None, S n);
     TrustAnchors n := (bytes_of_string "ROOT", n) |}.

(** Validator kind 2 is enabled and is the default. *)
Definition srv : @server nat :=
  {| vals := {[ 2 := tokenValidator ]}; defaultValidator := 2; ca := countingCA |}.

(** Validator kind 2 is enabled and there is no default. *)
Definition srvNoDefault : @server nat :=
  {| vals := {[ 2 := tokenValidator ]}; defaultValidator := 0; ca := countingCA |}.

Definition request (namespace id token csr : string) (kind : Z) : SignCertificateRequest :=
  {| Id := id; Token := token; Namespace := namespace;
     CertificateSigningRequest := bytes_of_string csr; req_TokenValidator := kind |}.

Definition clusterLocal : TrustDomain := {| td_String := "cluster.local" |}.

Definition keyBlock (ty : string) : pem_Block :=
  {| Type_ := ty; Bytes := bytes_of_string "key" |}.

Definition keyCSR : x509_CertificateRequest :=
  {| csr_PublicKey := bytes_of_string "key"; csr_SignatureAlgorithm := 10 |}.

(** The well-formed request of the end-to-end scenario, for workload [id]. *)
Definition goodRequest (id : string) : SignCertificateRequest :=
  request "default" id "good" "CERTIFICATE REQUEST:key" 0.

(** What the handler answers to [goodRequest "orders"]. *)
Definition goodResponse : SignCertificateResponse :=
  {| WorkloadCertificate := bytes_of_string "LEAFISSUER";
     TrustChainCertificates := [bytes_of_string "ROOT"];
     ValidUntil := {| Seconds := 1700086400; Nanos := 0 |} |}.

(** The environment variable names of the sidecar, and an environment that
    provides trust anchors and a certificate chain but no key. *)
Definition trustAnchorsVar : string := "DAPR_TRUST_ANCHORS".
Definition certChainVar : string := "DAPR_CERT_CHAIN".
Definition certKeyVar : string := "DAPR_CERT_KEY".

Definition envWithoutKey : gmap string string :=
  {[ trustAnchorsVar := "roots"; certChainVar := "chain" ]}.

(** Decide a closed fact about the test doubles by evaluation. *)
Ltac evaluate :=
  first [ vm_compute; reflexivity
        | let H := fresh in intro H; vm_compute in H; discriminate H ].

(** The test validator accepts a request with the good token. *)
Ltac accepted :=
  exists tokenValidator; split; [split|]; evaluate.

(** A CSR of the test doubles passes inspection as block [der]. *)
Ltac passes der :=
  exists der; split; [|split; [|split]];
  [ evaluate | first [left; evaluate | right; evaluate] | evaluate | evaluate ].

End Fixtures.

(** * Case analysis of a run of the handler *)

Module SentryCases.
Import Sentry.

(** Split a goal about [signCertificate s req w] into the eleven ways the
    handler can end, in source order: unspecified kind, kind not enabled,
    validator rejection, no PEM block, refused block type, parse error, bad
    signature, signing failure, encoding failure, empty chain, response. *)
Ltac run_cases s req w :=
  unfold signCertificate; cbv zeta;
  destruct (Z.eqb_spec (effectiveValidator s req) SignCertificateRequest_UNKNOWN)
    as [Hk | Hk];
  [ | destruct (vals s !! effectiveValidator s req) as [v|] eqn:Hv;
  [ unfold bind, emit, invoke, call, ret, panic;
    destruct (Validate v req w) as [[td [verr|]] w1] eqn:Hval;
  [ | destruct (pem_Decode (CertificateSigningRequest req)) as [der|] eqn:Hpem;
  [ destruct (negb (String.eqb (Type_ der) "CERTIFICATE REQUEST")
                && negb (String.eqb (Type_ der) "CERTIFICATE")) eqn:Hty;
  [ | destruct (x509_ParseCertificateRequest (Bytes der)) as [csr [perr|]] eqn:Hparse;
  [ | destruct (CheckSignature csr) as [serr|] eqn:Hsig;
  [ | destruct (SignIdentity (ca s) (signRequest req td csr) w1)
        as [[chain [cerr|]] w2] eqn:Hsign;
  [ | destruct (secpem_EncodeX509Chain chain) as [chainPEM [eerr|]] eqn:Henc;
  [ | destruct (TrustAnchors (ca s) w2) as [trustAnchors w3] eqn:Hta;
      destruct chain as [|c rest] ] ] ] ] ] | ] ] | ] ].

End SentryCases.

(** * Test doubles for the sidecar's security bootstrap

    The world is the number of reads [rand.Reader] can still serve; a key is
    a number, a pool the list of PEM bundles added to it. *)

Module RuntimeFixtures.
Import Sentry Security RuntimeSecurity.

Definition fakeGenerateKey (n : nat) : (nat * option error) * nat :=
  match n with
  | O => ((O, Some "EOF"), O)
  | S m => ((n, None), m)
  end.

Definition fakeMarshal (key : nat) : bytes * option error :=
  if Nat.eqb key 13 then ([], Some "x509: unknown elliptic curve")
  else (bytes_of_string "DER", None).

Definition fakeEncodeToMemory (b : pem_Block) : bytes :=
  bytes_of_string (Type_ b) ++ bytes_of_string ":" ++ Bytes b.

Definition fakeCreate (t : csr_Template) (key : nat) (n : nat) : (bytes * option error) * nat :=
  match n with
  | O => (([], Some "EOF"), O)
  | S m => ((bytes_of_string (CommonName (Subject t)), None), m)
  end.

Definition fakeAppend (pool : list bytes) (pem : bytes) : list bytes * bool :=
  match pem with
  | Byte.x2d :: _ => (pool ++ [pem], true)
  | _ => (pool, false)
  end.

(** What [newAuthenticator] is given, but for the generator. *)
Record fakeAuthenticator := {
  fa_address : string;
  fa_trustAnchors : option (list bytes);
  fa_cert : bytes;
  fa_key : bytes;
}.

Definition fakeNewAuthenticator (addr : string) (pool : option (list bytes))
    (cert key : bytes) (gen : string -> @R nat (bytes * bytes * option error))
    : fakeAuthenticator :=
  {| fa_address := addr; fa_trustAnchors := pool; fa_cert := cert; fa_key := key |}.

Definition generate : string -> @R nat (bytes * bytes * option error) :=
  generateCSRAndPrivateKey fakeGenerateKey fakeMarshal fakeEncodeToMemory fakeCreate.

Definition sidecarAuthenticator
    : string -> option CertChain -> @R nat (option fakeAuthenticator * option error) :=
  GetSidecarAuthenticator fakeGenerateKey fakeMarshal fakeEncodeToMemory fakeCreate
    [] fakeAppend fakeNewAuthenticator.

Definition certChain : gmap string string -> option CertChain * option error :=
  GetCertChain "DAPR_TRUST_ANCHORS" "DAPR_CERT_CHAIN" "DAPR_CERT_KEY".

(** An environment with PEM trust anchors, a certificate chain and a key. *)
Definition envComplete : gmap string string :=
  {[ "DAPR_TRUST_ANCHORS" := "-----BEGIN CERTIFICATE-----";
     "DAPR_CERT_CHAIN" := "chain";
     "DAPR_CERT_KEY" := "key" ]}.

(** The same environment with the key variable set to the empty string. *)
Definition envEmptyKey : gmap string string :=
  <[ "DAPR_CERT_KEY" := "" ]> envComplete.

(** Find an event in a concrete call log. *)
Ltac found := vm_compute; repeat first [ left; reflexivity | right ].

End RuntimeFixtures.

(** * Properties of the Sentry server *)

Module SentryProps.
Import Sentry.

(** ** SAN derivation *)

(** C4: the DNS SAN list is a function of (currentNamespace, namespace,
    workload id) alone and always has exactly one entry: the injector rule
    first, then the operator rule, then the default
    [<id>.<namespace>.svc.cluster.local]. *)
Theorem C4_dns_single_entry (currentNamespace namespace id : string) :
  (namespace = currentNamespace -> id = "dapr-injector" ->
     dns currentNamespace namespace id = ["dapr-sidecar-injector." +:+ namespace +:+ ".svc"]) /\
  (namespace = currentNamespace -> id = "dapr-operator" ->
     dns currentNamespace namespace id = ["dapr-webhook." +:+ namespace +:+ ".svc"]) /\
  (~ (namespace = currentNamespace /\ (id = "dapr-injector" \/ id = "dapr-operator")) ->
     dns currentNamespace namespace id = [id +:+ "." +:+ namespace +:+ ".svc.cluster.local"]) /\
  length (dns currentNamespace namespace id) = 1%nat.
Proof.
  unfold dns.
  destruct (String.eqb_spec namespace currentNamespace) as [Hns|Hns];
    destruct (String.eqb_spec id "dapr-injector") as [Hi|Hi];
    destruct (String.eqb_spec id "dapr-operator") as [Ho|Ho];
    cbn [andb]; repeat split; intros; try reflexivity; try congruence;
    try (subst id; discriminate); tauto.
Qed.

Lemma C4_dns_single_entry_witness :
  dns "dapr-system" "dapr-system" "dapr-injector" = ["dapr-sidecar-injector.dapr-system.svc"] /\
  dns "dapr-system" "dapr-system" "dapr-operator" = ["dapr-webhook.dapr-system.svc"] /\
  dns "dapr-system" "default" "myapp" = ["myapp.default.svc.cluster.local"] /\
  dns "dapr-system" "default" "dapr-injector" = ["dapr-injector.default.svc.cluster.local"].
Proof.
  split; [|split; [|split]].
  - apply (C4_dns_single_entry "dapr-system" "dapr-system" "dapr-injector"); reflexivity.
  - apply (C4_dns_single_entry "dapr-system" "dapr-system" "dapr-operator"); reflexivity.
  - apply (C4_dns_single_entry "dapr-system" "default" "myapp").
    intros [H _]; discriminate H.
  - apply (C4_dns_single_entry "dapr-system" "default" "dapr-injector").
    intros [H _]; discriminate H.
Defined.

(** ** The request pipeline *)

Section Pipeline.
Context {World : Type} `{!Externals}.
Implicit Types (s : @server World) (req : SignCertificateRequest) (w : World).

Lemma type_accepted (der : pem_Block) :
  Type_ der = "CERTIFICATE REQUEST" \/ Type_ der = "CERTIFICATE" ->
  negb (String.eqb (Type_ der) "CERTIFICATE REQUEST")
    && negb (String.eqb (Type_ der) "CERTIFICATE") = false.
Proof. intros [-> | ->]; reflexivity. Qed.

Lemma type_refused (der : pem_Block) :
  Type_ der <> "CERTIFICATE REQUEST" -> Type_ der <> "CERTIFICATE" ->
  negb (String.eqb (Type_ der) "CERTIFICATE REQUEST")
    && negb (String.eqb (Type_ der) "CERTIFICATE") = true.
Proof.
  intros H1 H2.
  apply String.eqb_neq in H1, H2. rewrite H1, H2. reflexivity.
Qed.

(** C1: once the validator has accepted the request, a CSR that does not
    decode as PEM, has a block type other than CERTIFICATE REQUEST or
    CERTIFICATE, does not parse, or carries a bad self-signature is
    answered with InvalidArgument (with the parse error text after a fixed
    prefix, and with the fixed text for a bad signature) and the
    certificate authority is not called. *)
Theorem C1_csr_rejected s req w (td : TrustDomain) (w1 : World) :
  authenticated s req w td w1 ->
  (pem_Decode (CertificateSigningRequest req) = None ->
     rejects s req w
       (status_Error InvalidArgument "invalid certificate signing request") w1) /\
  (forall der,
     pem_Decode (CertificateSigningRequest req) = Some der ->
     Type_ der <> "CERTIFICATE REQUEST" -> Type_ der <> "CERTIFICATE" ->
     rejects s req w
       (status_Error InvalidArgument "invalid certificate signing request") w1) /\
  (forall der csr perr,
     pem_Decode (CertificateSigningRequest req) = Some der ->
     Type_ der = "CERTIFICATE REQUEST" \/ Type_ der = "CERTIFICATE" ->
     x509_ParseCertificateRequest (Bytes der) = (csr, Some perr) ->
     rejects s req w
       (status_Error InvalidArgument
          ("failed to parse certificate signing request: " +:+ perr)) w1) /\
  (forall der csr serr,
     pem_Decode (CertificateSigningRequest req) = Some der ->
     Type_ der = "CERTIFICATE REQUEST" \/ Type_ der = "CERTIFICATE" ->
     x509_ParseCertificateRequest (Bytes der) = (csr, None) ->
     CheckSignature csr = Some serr ->
     rejects s req w (status_Error InvalidArgument "invalid signature") w1).
Proof.
  intros (v & (Hk & Hv) & Hval).
  repeat split.
  - intros Hpem. unfold rejects. enter Hk Hv.
    answer Hval. answer Hpem. eexists; split; reflexivity.
  - intros der Hpem H1 H2. unfold rejects. enter Hk Hv.
    answer Hval. answer Hpem. answer (type_refused der H1 H2).
    eexists; split; reflexivity.
  - intros der csr perr Hpem Hty Hparse. unfold rejects. enter Hk Hv.
    answer Hval. answer Hpem. answer (type_accepted der Hty). answer Hparse.
    eexists; split; reflexivity.
  - intros der csr serr Hpem Hty Hparse Hsig. unfold rejects. enter Hk Hv.
    answer Hval. answer Hpem. answer (type_accepted der Hty). answer Hparse.
    answer Hsig. eexists; split; reflexivity.
Qed.

(** C2: a specified kind (with a non-empty name) is the effective kind, an
    unspecified one falls back to the configured default, and when the
    effective kind is unspecified or not registered the handler returns
    InvalidArgument at once: no call has been made and the world is
    untouched. *)
Theorem C2_validator_resolution s req w :
  (req_TokenValidator req <> SignCertificateRequest_UNKNOWN ->
   TokenValidator_String (req_TokenValidator req) <> "" ->
     effectiveValidator s req = req_TokenValidator req) /\
  (req_TokenValidator req = SignCertificateRequest_UNKNOWN ->
     effectiveValidator s req = defaultValidator s) /\
  (effectiveValidator s req = SignCertificateRequest_UNKNOWN \/
   vals s !! effectiveValidator s req = None ->
     exists st,
       signCertificate s req w = (Return (None, Some st), w, []) /\
       code st = InvalidArgument).
Proof.
  repeat split.
  - intros Hk Hname. unfold effectiveValidator.
    apply Z.eqb_neq in Hk. apply String.eqb_neq in Hname.
    rewrite Hk, Hname. reflexivity.
  - intros Hk. unfold effectiveValidator. rewrite Hk. reflexivity.
  - intros Hbad. unfold signCertificate; cbv zeta.
    destruct (Z.eqb_spec (effectiveValidator s req) SignCertificateRequest_UNKNOWN)
      as [Hk | Hk].
    + eexists; split; reflexivity.
    + destruct Hbad as [Hu | Hno]; [contradiction|].
      rewrite Hno. eexists; split; reflexivity.
Qed.

(** C3: when the resolved validator returns an error, the handler answers
    PermissionDenied with that error's text; the validator was called
    exactly once and the certificate authority not at all. *)
Theorem C3_validator_rejection s req w (v : Validator) (td : TrustDomain)
    (err : error) (w1 : World) :
  resolved s req v ->
  Validate v req w = ((td, Some err), w1) ->
  exists evs,
    signCertificate s req w
      = (Return (None, Some (status_Error PermissionDenied err)), w1, evs) /\
    validate_calls evs = [CallValidate (effectiveValidator s req)] /\
    ca_calls evs = [].
Proof.
  intros (Hk & Hv) Hval. enter Hk Hv. answer Hval.
  eexists; repeat split; reflexivity.
Qed.

(** The accepted block types, read back from the handler's test. *)
Lemma type_accepted_inv (der : pem_Block) :
  negb (String.eqb (Type_ der) "CERTIFICATE REQUEST")
    && negb (String.eqb (Type_ der) "CERTIFICATE") = false ->
  Type_ der = "CERTIFICATE REQUEST" \/ Type_ der = "CERTIFICATE".
Proof.
  destruct (String.eqb_spec (Type_ der) "CERTIFICATE REQUEST"); [now left|].
  destruct (String.eqb_spec (Type_ der) "CERTIFICATE"); [now right|].
  discriminate.
Qed.

(** A run that returns a response went through every stage. *)
Lemma success_inv s req w resp err w' evs :
  signCertificate s req w = (Return (Some resp, err), w', evs) ->
  exists td w1 csr c rest w2 chainPEM trustAnchors,
    authenticated s req w td w1 /\
    inspected req csr /\
    SignIdentity (ca s) (signRequest req td csr) w1 = ((c :: rest, None), w2) /\
    secpem_EncodeX509Chain (c :: rest) = (chainPEM, None) /\
    TrustAnchors (ca s) w2 = (trustAnchors, w') /\
    err = None /\
    resp = {| WorkloadCertificate := chainPEM;
              TrustChainCertificates := [trustAnchors];
              ValidUntil := timestamppb_New (NotAfter c) |}.
Proof.
  unfold signCertificate; cbv zeta.
  destruct (Z.eqb_spec (effectiveValidator s req) SignCertificateRequest_UNKNOWN)
    as [Hk | Hk]; [discriminate|].
  destruct (vals s !! effectiveValidator s req) as [v|] eqn:Hv; [|discriminate].
  unfold bind, emit, invoke, call, ret, panic.
  destruct (Validate v req w) as [[td [e|]] w1] eqn:Hval; [discriminate|].
  destruct (pem_Decode (CertificateSigningRequest req)) as [der|] eqn:Hpem;
    [|discriminate].
  destruct (negb (String.eqb (Type_ der) "CERTIFICATE REQUEST")
              && negb (String.eqb (Type_ der) "CERTIFICATE")) eqn:Hty;
    [discriminate|].
  destruct (x509_ParseCertificateRequest (Bytes der)) as [csr [e|]] eqn:Hparse;
    [discriminate|].
  destruct (CheckSignature csr) as [e|] eqn:Hsig; [discriminate|].
  destruct (SignIdentity (ca s) (signRequest req td csr) w1)
    as [[chain [e|]] w2] eqn:Hsign; [discriminate|].
  destruct (secpem_EncodeX509Chain chain) as [chainPEM [e|]] eqn:Henc;
    [discriminate|].
  destruct (TrustAnchors (ca s) w2) as [trustAnchors w3] eqn:Hta.
  destruct chain as [|c rest]; [discriminate|].
  intros Hrun. injection Hrun as <- <- <- <-.
  exists td, w1, csr, c, rest, w2, chainPEM, trustAnchors.
  repeat split; try assumption.
  - exists v. repeat split; assumption.
  - exists der. repeat split; try assumption. apply type_accepted_inv, Hty.
Qed.

(** The certificate authority is asked to sign for exactly the derived SAN
    list. *)
Lemma signRequest_DNS req (td : TrustDomain) (csr : x509_CertificateRequest) :
  sr_DNS (signRequest req td csr)
    = dns security_CurrentNamespace (Namespace req) (Id req).
Proof. reflexivity. Qed.

(** C5: whenever the handler returns a response, the certificate
    authority had returned a chain with a first certificate, and the
    response's [ValidUntil] is that certificate's [NotAfter]. *)
Theorem C5_valid_until s req w (resp : SignCertificateResponse) (w' : World)
    (evs : list Event) :
  signCertificate s req w = (Return (Some resp, None), w', evs) ->
  exists td w1 csr c rest w2,
    authenticated s req w td w1 /\
    inspected req csr /\
    SignIdentity (ca s) (signRequest req td csr) w1 = ((c :: rest, None), w2) /\
    ValidUntil resp = timestamppb_New (NotAfter c).
Proof.
  intros Hrun.
  destruct (success_inv _ _ _ _ _ _ _ Hrun)
    as (td & w1 & csr & c & rest & w2 & chainPEM & ta & Ha & Hi & Hs & _ & _ & _ & ->).
  exists td, w1, csr, c, rest, w2. repeat split; assumption.
Qed.

(** C6: a failure of [SignIdentity] is answered with Internal and the fixed
    text "failed to sign certificate", a failure of the chain encoder with
    Internal and the fixed text "failed to encode certificate chain"; the
    response is nil and the answer is the same whatever the cause. *)
Theorem C6_internal_errors s req w (td : TrustDomain) (w1 : World)
    (csr : x509_CertificateRequest) :
  authenticated s req w td w1 ->
  inspected req csr ->
  (forall chain cause w2,
     SignIdentity (ca s) (signRequest req td csr) w1 = ((chain, Some cause), w2) ->
     exists evs,
       signCertificate s req w
         = (Return (None, Some (status_Error Internal "failed to sign certificate")),
            w2, evs)) /\
  (forall chain w2 chainPEM cause,
     SignIdentity (ca s) (signRequest req td csr) w1 = ((chain, None), w2) ->
     secpem_EncodeX509Chain chain = (chainPEM, Some cause) ->
     exists evs,
       signCertificate s req w
         = (Return (None, Some (status_Error Internal "failed to encode certificate chain")),
            w2, evs)).
Proof.
  intros (v & (Hk & Hv) & Hval) (der & Hpem & Hty & Hparse & Hsig).
  split.
  - intros chain cause w2 Hsign. enter Hk Hv.
    answer Hval. answer Hpem. answer (type_accepted der Hty). answer Hparse.
    answer Hsig. answer Hsign. eexists; reflexivity.
  - intros chain w2 chainPEM cause Hsign Henc. enter Hk Hv.
    answer Hval. answer Hpem. answer (type_accepted der Hty). answer Hparse.
    answer Hsig. answer Hsign. answer Henc. eexists; reflexivity.
Qed.


(** C7 (amended): both resolution failures are InvalidArgument with no
    call made, but each has its own fixed text, so the two are told apart
    by their message. *)
Theorem C7_resolution_errors s req w :
  (effectiveValidator s req = SignCertificateRequest_UNKNOWN ->
     signCertificate s req w
       = (Return (None, Some (status_Error InvalidArgument
                    "a validator name must be specified in this environment")),
          w, [])) /\
  (effectiveValidator s req <> SignCertificateRequest_UNKNOWN ->
   vals s !! effectiveValidator s req = None ->
     signCertificate s req w
       = (Return (None, Some (status_Error InvalidArgument
                    "the requested validator is not enabled")),
          w, [])) /\
  status_Error InvalidArgument "a validator name must be specified in this environment"
    <> status_Error InvalidArgument "the requested validator is not enabled".
Proof.
  repeat split.
  - intros Hk. unfold signCertificate; cbv zeta. rewrite Hk. reflexivity.
  - intros Hk Hno. unfold signCertificate; cbv zeta.
    rewrite (proj2 (Z.eqb_neq _ _) Hk), Hno. reflexivity.
  - discriminate.
Qed.

(** The handler itself touches no monitoring counter. *)
Lemma signCertificate_no_monitoring s req w :
  monitoring (signCertificate s req w).2 = [].
Proof.
  unfold signCertificate; cbv zeta.
  destruct (Z.eqb (effectiveValidator s req) SignCertificateRequest_UNKNOWN);
    [reflexivity|].
  destruct (vals s !! effectiveValidator s req) as [v|]; [|reflexivity].
  unfold bind, emit, invoke, call, ret, panic.
  destruct (Validate v req w) as [[td [e|]] w1]; [reflexivity|].
  destruct (pem_Decode (CertificateSigningRequest req)) as [der|]; [|reflexivity].
  destruct (negb (String.eqb (Type_ der) "CERTIFICATE REQUEST")
              && negb (String.eqb (Type_ der) "CERTIFICATE")); [reflexivity|].
  destruct (x509_ParseCertificateRequest (Bytes der)) as [csr [e|]]; [reflexivity|].
  destruct (CheckSignature csr) as [e|]; [reflexivity|].
  destruct (SignIdentity (ca s) (signRequest req td csr) w1) as [[chain [e|]] w2];
    [reflexivity|].
  destruct (secpem_EncodeX509Chain chain) as [chainPEM [e|]]; [reflexivity|].
  destruct (TrustAnchors (ca s) w2) as [trustAnchors w3].
  destruct chain; reflexivity.
Qed.


End Pipeline.

(** ** The properties at work on the test doubles *)

Import Fixtures.
#[local] Existing Instance fakes.

Lemma C1_csr_rejected_witness :
  rejects srv (request "default" "orders" "good" "garbage" 0) 0%nat
    (status_Error InvalidArgument "invalid certificate signing request") 0%nat /\
  rejects srv (request "default" "orders" "good" "EC PRIVATE KEY:key" 0) 0%nat
    (status_Error InvalidArgument "invalid certificate signing request") 0%nat /\
  rejects srv (request "default" "orders" "good" "CERTIFICATE REQUEST:!bad" 0) 0%nat
    (status_Error InvalidArgument
       "failed to parse certificate signing request: asn1: syntax error") 0%nat /\
  rejects srv (request "default" "orders" "good" "CERTIFICATE:?forged" 0) 0%nat
    (status_Error InvalidArgument "invalid signature") 0%nat.
Proof.
  split; [|split; [|split]].
  - apply (proj1 (C1_csr_rejected srv (request "default" "orders" "good" "garbage" 0)
             0%nat clusterLocal 0%nat ltac:(accepted))).
    evaluate.
  - apply (proj1 (proj2 (C1_csr_rejected srv
             (request "default" "orders" "good" "EC PRIVATE KEY:key" 0)
             0%nat clusterLocal 0%nat ltac:(accepted))) (keyBlock "EC PRIVATE KEY"));
      evaluate.
  - apply (proj1 (proj2 (proj2 (C1_csr_rejected srv
             (request "default" "orders" "good" "CERTIFICATE REQUEST:!bad" 0)
             0%nat clusterLocal 0%nat ltac:(accepted))))
             {| Type_ := "CERTIFICATE REQUEST"; Bytes := bytes_of_string "!bad" |}
             {| csr_PublicKey := []; csr_SignatureAlgorithm := 0 |}
             "asn1: syntax error");
      [evaluate | left; evaluate | evaluate].
  - apply (proj2 (proj2 (proj2 (C1_csr_rejected srv
             (request "default" "orders" "good" "CERTIFICATE:?forged" 0)
             0%nat clusterLocal 0%nat ltac:(accepted))))
             {| Type_ := "CERTIFICATE"; Bytes := bytes_of_string "?forged" |}
             {| csr_PublicKey := bytes_of_string "?forged"; csr_SignatureAlgorithm := 0 |}
             "x509: cannot verify signature: algorithm unimplemented");
      [evaluate | right; evaluate | evaluate | evaluate].
Defined.

Lemma C2_validator_resolution_witness :
  effectiveValidator srv (request "default" "orders" "good" "CERTIFICATE REQUEST:key" 2) = 2 /\
  effectiveValidator srv (goodRequest "orders") = 2 /\
  (exists st,
     signCertificate srvNoDefault (goodRequest "orders") 0%nat
       = (Return (None, Some st), 0%nat, []) /\ code st = InvalidArgument) /\
  (exists st,
     signCertificate srv (request "default" "orders" "good" "CERTIFICATE REQUEST:key" 1) 0%nat
       = (Return (None, Some st), 0%nat, []) /\ code st = InvalidArgument).
Proof.
  split; [|split; [|split]].
  - apply (proj1 (C2_validator_resolution srv
             (request "default" "orders" "good" "CERTIFICATE REQUEST:key" 2) 0%nat));
      evaluate.
  - apply (proj1 (proj2 (C2_validator_resolution srv (goodRequest "orders") 0%nat)));
      evaluate.
  - apply (proj2 (proj2 (C2_validator_resolution srvNoDefault
             (goodRequest "orders") 0%nat))).
    left; evaluate.
  - apply (proj2 (proj2 (C2_validator_resolution srv
             (request "default" "orders" "good" "CERTIFICATE REQUEST:key" 1) 0%nat))).
    right; evaluate.
Defined.

Lemma C3_validator_rejection_witness :
  exists evs,
    signCertificate srv (request "default" "orders" "bad" "CERTIFICATE REQUEST:key" 0) 0%nat
      = (Return (None, Some (status_Error PermissionDenied "token rejected")), 0%nat, evs) /\
    validate_calls evs = [CallValidate 2] /\
    ca_calls evs = [].
Proof.
  apply (C3_validator_rejection srv
           (request "default" "orders" "bad" "CERTIFICATE REQUEST:key" 0) 0%nat
           tokenValidator {| td_String := "" |} "token rejected" 0%nat).
  - split; evaluate.
  - evaluate.
Defined.

Lemma C5_valid_until_witness :
  exists td w1 csr c rest w2,
    authenticated srv (goodRequest "orders") 0%nat td w1 /\
    inspected (goodRequest "orders") csr /\
    SignIdentity (ca srv) (signRequest (goodRequest "orders") td csr) w1
      = ((c :: rest, None), w2) /\
    ValidUntil goodResponse = timestamppb_New (NotAfter c).
Proof.
  eapply (C5_valid_until srv (goodRequest "orders") 0%nat goodResponse).
  reflexivity.
Defined.

Lemma C6_internal_errors_witness :
  (exists evs,
     signCertificate srv (goodRequest "unsignable") 0%nat
       = (Return (None, Some (status_Error Internal "failed to sign certificate")),
          1%nat, evs)) /\
  (exists evs,
     signCertificate srv (goodRequest "unencodable") 0%nat
       = (Return (None, Some (status_Error Internal "failed to encode certificate chain")),
          1%nat, evs)).
Proof.
  split.
  - apply (proj1 (C6_internal_errors srv (goodRequest "unsignable") 0%nat
                    clusterLocal 0%nat keyCSR
                    ltac:(accepted) ltac:(passes (keyBlock "CERTIFICATE REQUEST")))
             [] "issuer key unavailable" 1%nat).
    evaluate.
  - apply (proj2 (C6_internal_errors srv (goodRequest "unencodable") 0%nat
                    clusterLocal 0%nat keyCSR
                    ltac:(accepted) ltac:(passes (keyBlock "CERTIFICATE REQUEST")))
             [blank] 1%nat [] "certificate has no raw bytes");
      evaluate.
Defined.



(** The two resolution failures are told apart: with no default configured,
    a request naming no validator and a request naming the disabled validator
    1 are answered with different errors. *)
Lemma C7_counterexample :
  effectiveValidator srvNoDefault (goodRequest "orders") = SignCertificateRequest_UNKNOWN /\
  effectiveValidator srvNoDefault
    (request "default" "orders" "good" "CERTIFICATE REQUEST:key" 1)
    <> SignCertificateRequest_UNKNOWN /\
  vals srvNoDefault
    !! effectiveValidator srvNoDefault
         (request "default" "orders" "good" "CERTIFICATE REQUEST:key" 1) = None /\
  (signCertificate srvNoDefault (goodRequest "orders") 0%nat).1.1
    <> (signCertificate srvNoDefault
          (request "default" "orders" "good" "CERTIFICATE REQUEST:key" 1) 0%nat).1.1.
Proof.
  repeat split; evaluate.
Qed.


End SentryProps.

(** * Properties of the runtime's certificate chain loading *)

Module SecurityProps.
Import Security.

Section GetCertChain.
Variables TrustAnchorsEnvVar CertChainEnvVar CertKeyEnvVar : string.
Implicit Types env : gmap string string.

Local Abbreviation GetCertChain :=
  (GetCertChain TrustAnchorsEnvVar CertChainEnvVar CertKeyEnvVar).

(** C10: [GetCertChain] fails when the trust anchors or the certificate
    chain are empty, and never looks at the key: whenever both are set it
    returns the three values with a nil error, so an empty key variable
    gives a [CertChain] with an empty [Key]. *)
Theorem C10_key_not_checked env :
  (os_Getenv env TrustAnchorsEnvVar = "" ->
     GetCertChain env
       = (None, Some ("couldn't find trust anchors in environment variable "
                        +:+ TrustAnchorsEnvVar))) /\
  (os_Getenv env TrustAnchorsEnvVar <> "" ->
   os_Getenv env CertChainEnvVar = "" ->
     GetCertChain env
       = (None, Some ("couldn't find cert chain in environment variable "
                        +:+ CertChainEnvVar))) /\
  (os_Getenv env TrustAnchorsEnvVar <> "" ->
   os_Getenv env CertChainEnvVar <> "" ->
     GetCertChain env
       = (Some {| RootCA := bytes_of_string (os_Getenv env TrustAnchorsEnvVar);
                  Cert := bytes_of_string (os_Getenv env CertChainEnvVar);
                  Key := bytes_of_string (os_Getenv env CertKeyEnvVar) |},
          None)) /\
  (os_Getenv env TrustAnchorsEnvVar <> "" ->
   os_Getenv env CertChainEnvVar <> "" ->
   os_Getenv env CertKeyEnvVar = "" ->
     exists chain, GetCertChain env = (Some chain, None) /\ Key chain = []).
Proof.
  unfold Security.GetCertChain; cbv zeta.
  destruct (String.eqb_spec (os_Getenv env TrustAnchorsEnvVar) "") as [Ht | Ht];
    destruct (String.eqb_spec (os_Getenv env CertChainEnvVar) "") as [Hc | Hc];
    repeat split; intros; try reflexivity; try contradiction.
  eexists; split; [reflexivity|].
  cbn [Key]. match goal with H : os_Getenv _ CertKeyEnvVar = _ |- _ => rewrite H end.
  reflexivity.
Qed.

End GetCertChain.

Import Fixtures.

Lemma C10_key_not_checked_witness :
  exists chain,
    Security.GetCertChain trustAnchorsVar certChainVar certKeyVar envWithoutKey
      = (Some chain, None) /\
    Key chain = [].
Proof.
  apply (proj2 (proj2 (proj2
           (C10_key_not_checked trustAnchorsVar certChainVar certKeyVar envWithoutKey))));
    evaluate.
Defined.

End SecurityProps.

(** * Further properties of the Sentry server *)

Module SentryExtra.
Import Sentry SentryCases.

Section Runs.
Context {World : Type} `{!Externals}.
Implicit Types (s : @server World) (req : SignCertificateRequest) (w : World).

(** X1: a run that returns gives a response or an error, never both and
    never neither. *)
Theorem X1_response_xor_error s req w
    (resp : option SignCertificateResponse) (err : option Status)
    (w' : World) (evs : list Event) :
  signCertificate s req w = (Return (resp, err), w', evs) ->
  (is_Some resp /\ err = None) \/ (resp = None /\ is_Some err).
Proof.
  run_cases s req w; intros Hrun; try discriminate Hrun;
    injection Hrun as <- <- <- <-; eauto.
Qed.

(** X2: whatever the outcome of a run, the certificate authority was asked
    to sign only if the validator had accepted the request and the CSR had
    passed inspection, and the request it was given holds the CSR's public
    key and signature algorithm, the validator's trust domain, the caller's
    namespace and id, and the derived SAN list. *)
Theorem X2_signing_behind_both_gates s req w
    (out : outcome (option SignCertificateResponse * option Status))
    (w' : World) (evs : list Event) (sr : SignRequest) :
  signCertificate s req w = (out, w', evs) ->
  In (CallSignIdentity sr) evs ->
  exists td w1 csr,
    authenticated s req w td w1 /\
    inspected req csr /\
    sr = {| sr_PublicKey := csr_PublicKey csr;
            sr_SignatureAlgorithm := csr_SignatureAlgorithm csr;
            sr_TrustDomain := td_String td;
            sr_Namespace := Namespace req;
            sr_AppID := Id req;
            sr_DNS := dns security_CurrentNamespace (Namespace req) (Id req) |}.
Proof.
  run_cases s req w; intros Hrun; injection Hrun as <- <- <-; cbn;
    intros Hin; repeat (destruct Hin as [Hin | Hin]; try discriminate Hin);
    try contradiction;
    injection Hin as <-;
    (exists td, w1, csr; split; [exists v; repeat split; assumption|];
     split; [|reflexivity];
     exists der; repeat split; try assumption;
     apply SentryProps.type_accepted_inv, Hty).
Qed.

(** X3: no stage is retried: a run calls a validator at most once, asks the
    certificate authority to sign at most once, and reads the trust anchors
    at most once and only after signing. *)
Theorem X3_calls_at_most_once s req w :
  let evs := (signCertificate s req w).2 in
  (validate_calls evs = [] \/
   validate_calls evs = [CallValidate (effectiveValidator s req)]) /\
  (ca_calls evs = [] \/
   exists sr, ca_calls evs = [CallSignIdentity sr] \/
              ca_calls evs = [CallSignIdentity sr; CallTrustAnchors]).
Proof.
  run_cases s req w; cbn; eauto 6.
Qed.

(** X4: a validator is called only under the effective kind, which is then
    specified and registered; in particular a validator registered under
    UNKNOWN is never called. *)
Theorem X4_validator_kind s req w (k : Z) :
  In (CallValidate k) (signCertificate s req w).2 ->
  k = effectiveValidator s req /\
  k <> SignCertificateRequest_UNKNOWN /\
  is_Some (vals s !! k).
Proof.
  run_cases s req w; cbn;
    intros Hin; repeat (destruct Hin as [Hin | Hin]; try discriminate Hin);
    try contradiction;
    injection Hin as <-; rewrite Hv; eauto.
Qed.

(** X5: a returned error is Internal exactly when the certificate authority
    was called; InvalidArgument and PermissionDenied are decided without
    it. *)
Theorem X5_internal_iff_ca_called s req w
    (resp : option SignCertificateResponse) (st : Status)
    (w' : World) (evs : list Event) :
  signCertificate s req w = (Return (resp, Some st), w', evs) ->
  (code st = Internal <-> ca_calls evs <> []).
Proof.
  run_cases s req w; intros Hrun; try discriminate Hrun;
    injection Hrun as <- <- <- <-; cbn; split; intros Hc;
    try discriminate Hc; try reflexivity; try discriminate;
    try (exfalso; apply Hc; reflexivity).
Qed.

(** X6: a returned error is PermissionDenied exactly when the resolved
    validator rejected the request, and its message is then the validator's
    error text. *)
Theorem X6_permission_denied_iff_rejected s req w
    (resp : option SignCertificateResponse) (st : Status)
    (w' : World) (evs : list Event) :
  signCertificate s req w = (Return (resp, Some st), w', evs) ->
  (code st = PermissionDenied <->
   exists v td w1,
     resolved s req v /\ Validate v req w = ((td, Some (message st)), w1)).
Proof.
  run_cases s req w; intros Hrun; try discriminate Hrun;
    injection Hrun as <- <- <- <-; cbn; split;
    try discriminate;
    try (intros (v' & td' & w1' & (Hk' & Hv') & Hval');
         first [ contradiction
               | congruence ]).
  intros _. exists v, td, w1. repeat split; assumption.
Qed.

(** X7: a request that names a validator kind that is not enabled is
    refused even when the default validator is enabled: the handler does not
    fall back to the default. *)
Theorem X7_no_fallback_to_default s req w :
  req_TokenValidator req <> SignCertificateRequest_UNKNOWN ->
  TokenValidator_String (req_TokenValidator req) <> "" ->
  vals s !! req_TokenValidator req = None ->
  signCertificate s req w
    = (Return (None, Some (status_Error InvalidArgument
                             "the requested validator is not enabled")),
       w, []).
Proof.
  intros Hk Hname Hno.
  assert (effectiveValidator s req = req_TokenValidator req) as Heff.
  { unfold effectiveValidator.
    apply Z.eqb_neq in Hk. apply String.eqb_neq in Hname.
    rewrite Hk, Hname. reflexivity. }
  unfold signCertificate; cbv zeta. rewrite Heff.
  apply Z.eqb_neq in Hk. rewrite Hk, Hno. reflexivity.
Qed.

(** X8: a response carries the encoding of exactly the chain the
    certificate authority returned and exactly one trust chain entry, the
    authority's trust anchors; the run made its calls in pipeline order, each
    once. *)
Theorem X8_response_contents s req w (resp : SignCertificateResponse)
    (w' : World) (evs : list Event) :
  signCertificate s req w = (Return (Some resp, None), w', evs) ->
  exists td w1 csr chain w2 trustAnchors,
    authenticated s req w td w1 /\
    inspected req csr /\
    SignIdentity (ca s) (signRequest req td csr) w1 = ((chain, None), w2) /\
    secpem_EncodeX509Chain chain = (WorkloadCertificate resp, None) /\
    TrustAnchors (ca s) w2 = (trustAnchors, w') /\
    TrustChainCertificates resp = [trustAnchors] /\
    evs = [Log Debug "Processing SignCertificate request for %s/%s (validator: %s)"
             [Namespace req; Id req; TokenValidator_String (effectiveValidator s req)];
           CallValidate (effectiveValidator s req);
           CallPemDecode; CallParseCertificateRequest; CallCheckSignature;
           CallSignIdentity (signRequest req td csr);
           CallEncodeX509Chain; CallTrustAnchors].
Proof.
  run_cases s req w; intros Hrun; try discriminate Hrun.
  injection Hrun as <- <- <-.
  exists td, w1, csr, (c :: rest), w2, trustAnchors.
  repeat split; try assumption.
  - exists v. repeat split; assumption.
  - exists der. repeat split; try assumption.
    apply SentryProps.type_accepted_inv, Hty.
Qed.

(** X9: the dispatcher adds nothing but its counters: it returns what the
    handler returns (or panics as the handler does), leaves the same world,
    and its call log without the monitoring events is the handler's. *)
Theorem X9_dispatcher_transparent s req w :
  let '(out, w1, evs) := signCertificate s req w in
  let '(out', w1', evs') := SignCertificate s req w in
  out' = out /\ w1' = w1 /\
  List.filter (fun e => negb (is_monitoring e)) evs' = evs.
Proof.
  unfold SignCertificate. run_cases s req w; cbn; repeat split; reflexivity.
Qed.

(** X10: when the certificate authority returns an empty chain without an
    error and the encoder accepts it, the dispatcher panics after counting
    the request as received: neither the success nor the failure counter
    moves. *)
Theorem X10_dispatcher_panic_uncounted s req w (td : TrustDomain) (w1 : World)
    (csr : x509_CertificateRequest) (w2 : World) (chainPEM : bytes) :
  authenticated s req w td w1 ->
  inspected req csr ->
  SignIdentity (ca s) (signRequest req td csr) w1 = (([], None), w2) ->
  secpem_EncodeX509Chain [] = (chainPEM, None) ->
  exists w' evs,
    SignCertificate s req w
      = (Panic "index out of range [0] with length 0", w', evs) /\
    monitoring evs = [CertSignRequestReceived].
Proof.
  intros (v & (Hk & Hv) & Hval) (der & Hpem & Hty & Hparse & Hsig) Hsign Henc.
  unfold SignCertificate. enter Hk Hv.
  answer Hval. answer Hpem. answer (SentryProps.type_accepted der Hty).
  answer Hparse. answer Hsig. answer Hsign. answer Henc.
  destruct (TrustAnchors (ca s) w2) as [ta w3].
  do 2 eexists; split; reflexivity.
Qed.

End Runs.

(** ** SAN derivation *)

Lemma string_append_assoc (a b c : string) : (a +:+ b) +:+ c = a +:+ b +:+ c.
Proof.
  induction a as [|ch a IH]; [reflexivity|].
  change (String ch ((a +:+ b) +:+ c) = String ch (a +:+ b +:+ c)).
  f_equal. exact IH.
Qed.

(** X11: outside the current namespace the SAN does not determine the
    workload: moving a dot-separated label from the front of the namespace
    to the end of the workload id leaves the SAN unchanged. *)
Theorem X11_dns_label_shift (currentNamespace namespace id label : string) :
  label +:+ "." +:+ namespace <> currentNamespace ->
  namespace <> currentNamespace ->
  dns currentNamespace (label +:+ "." +:+ namespace) id
    = dns currentNamespace namespace (id +:+ "." +:+ label).
Proof.
  intros H1 H2. unfold dns.
  apply String.eqb_neq in H1, H2. rewrite H1, H2. cbn [andb].
  apply (f_equal (fun x => [x])).
  rewrite (string_append_assoc id), (string_append_assoc label). reflexivity.
Qed.

(** ** The properties at work on the test doubles *)

Import Fixtures RuntimeFixtures.
#[local] Existing Instance fakes.

Lemma X1_response_xor_error_witness :
  (is_Some (Some goodResponse) /\ (None : option Status) = None) \/
  (Some goodResponse = None /\ is_Some (None : option Status)).
Proof.
  eapply (X1_response_xor_error srv (goodRequest "orders") 0%nat).
  reflexivity.
Defined.

Lemma X2_signing_behind_both_gates_witness :
  exists td w1 csr,
    authenticated srv (goodRequest "orders") 0%nat td w1 /\
    inspected (goodRequest "orders") csr /\
    {| sr_PublicKey := bytes_of_string "key";
       sr_SignatureAlgorithm := 10;
       sr_TrustDomain := "cluster.local";
       sr_Namespace := "default";
       sr_AppID := "orders";
       sr_DNS := ["orders.default.svc.cluster.local"] |}
      = {| sr_PublicKey := csr_PublicKey csr;
           sr_SignatureAlgorithm := csr_SignatureAlgorithm csr;
           sr_TrustDomain := td_String td;
           sr_Namespace := Namespace (goodRequest "orders");
           sr_AppID := Id (goodRequest "orders");
           sr_DNS := dns security_CurrentNamespace (Namespace (goodRequest "orders"))
                       (Id (goodRequest "orders")) |}.
Proof.
  eapply (X2_signing_behind_both_gates srv (goodRequest "orders") 0%nat);
    [reflexivity | found].
Defined.

Lemma X4_validator_kind_witness :
  2 = effectiveValidator srv (goodRequest "orders") /\
  2 <> SignCertificateRequest_UNKNOWN /\
  is_Some (vals srv !! 2).
Proof.
  apply (X4_validator_kind srv (goodRequest "orders") 0%nat 2). found.
Defined.

Lemma X5_internal_iff_ca_called_witness :
  code (status_Error Internal "failed to sign certificate") = Internal <->
  ca_calls (signCertificate srv (goodRequest "unsignable") 0%nat).2 <> [].
Proof.
  apply (X5_internal_iff_ca_called srv (goodRequest "unsignable") 0%nat None
           (status_Error Internal "failed to sign certificate") 1%nat).
  reflexivity.
Defined.

Lemma X6_permission_denied_iff_rejected_witness :
  code (status_Error PermissionDenied "token rejected") = PermissionDenied <->
  exists v td w1,
    resolved srv (request "default" "orders" "bad" "CERTIFICATE REQUEST:key" 0) v /\
    Validate v (request "default" "orders" "bad" "CERTIFICATE REQUEST:key" 0) 0%nat
      = ((td, Some (message (status_Error PermissionDenied "token rejected"))), w1).
Proof.
  eapply (X6_permission_denied_iff_rejected srv
            (request "default" "orders" "bad" "CERTIFICATE REQUEST:key" 0) 0%nat None).
  reflexivity.
Defined.

Lemma X7_no_fallback_to_default_witness :
  vals srv !! defaultValidator srv = Some tokenValidator /\
  signCertificate srv (request "default" "orders" "good" "CERTIFICATE REQUEST:key" 1) 0%nat
    = (Return (None, Some (status_Error InvalidArgument
                             "the requested validator is not enabled")),
       0%nat, []).
Proof.
  split; [evaluate|].
  apply (X7_no_fallback_to_default srv
           (request "default" "orders" "good" "CERTIFICATE REQUEST:key" 1) 0%nat);
    evaluate.
Defined.

Lemma X8_response_contents_witness :
  exists td w1 csr chain w2 trustAnchors,
    authenticated srv (goodRequest "orders") 0%nat td w1 /\
    inspected (goodRequest "orders") csr /\
    SignIdentity (ca srv) (signRequest (goodRequest "orders") td csr) w1
      = ((chain, None), w2) /\
    secpem_EncodeX509Chain chain = (WorkloadCertificate goodResponse, None) /\
    TrustAnchors (ca srv) w2 = (trustAnchors, 1%nat) /\
    TrustChainCertificates goodResponse = [trustAnchors] /\
    (signCertificate srv (goodRequest "orders") 0%nat).2
      = [Log Debug "Processing SignCertificate request for %s/%s (validator: %s)"
           [Namespace (goodRequest "orders"); Id (goodRequest "orders");
            TokenValidator_String (effectiveValidator srv (goodRequest "orders"))];
         CallValidate (effectiveValidator srv (goodRequest "orders"));
         CallPemDecode; CallParseCertificateRequest; CallCheckSignature;
         CallSignIdentity (signRequest (goodRequest "orders") td csr);
         CallEncodeX509Chain; CallTrustAnchors].
Proof.
  apply (X8_response_contents srv (goodRequest "orders") 0%nat goodResponse 1%nat).
  reflexivity.
Defined.

Lemma X10_dispatcher_panic_uncounted_witness :
  exists w' evs,
    SignCertificate srv (goodRequest "nochain") 0%nat
      = (Panic "index out of range [0] with length 0", w', evs) /\
    monitoring evs = [CertSignRequestReceived].
Proof.
  apply (X10_dispatcher_panic_uncounted srv (goodRequest "nochain") 0%nat
           clusterLocal 0%nat keyCSR 1%nat []);
    [accepted | passes (keyBlock "CERTIFICATE REQUEST") | evaluate | evaluate].
Defined.

Lemma X11_dns_label_shift_witness :
  dns "dapr-system" "east.prod" "web" = dns "dapr-system" "prod" "web.east".
Proof.
  apply (X11_dns_label_shift "dapr-system" "prod" "web" "east"); evaluate.
Defined.

End SentryExtra.

(** * Properties of the sidecar's security bootstrap *)

Module RuntimeSecurityProps.
Import Sentry Security RuntimeSecurity.

Section Runtime.
Context {World PrivateKey Pool Authenticator : Type}.
Variable ecdsa_GenerateKey : World -> (PrivateKey * option error) * World.
Variable x509_MarshalECPrivateKey : PrivateKey -> bytes * option error.
Variable pem_EncodeToMemory : pem_Block -> bytes.
Variable x509_CreateCertificateRequest :
  csr_Template -> PrivateKey -> World -> (bytes * option error) * World.
Variable x509_NewCertPool : Pool.
Variable AppendCertsFromPEM : Pool -> bytes -> Pool * bool.
Variable newAuthenticator :
  string -> option Pool -> bytes -> bytes ->
  (string -> @R World (bytes * bytes * option error)) -> Authenticator.
Variables TrustAnchorsEnvVar CertChainEnvVar CertKeyEnvVar : string.

Local Abbreviation generate :=
  (generateCSRAndPrivateKey ecdsa_GenerateKey x509_MarshalECPrivateKey
     pem_EncodeToMemory x509_CreateCertificateRequest).
Local Abbreviation sidecarAuthenticator :=
  (GetSidecarAuthenticator ecdsa_GenerateKey x509_MarshalECPrivateKey
     pem_EncodeToMemory x509_CreateCertificateRequest
     x509_NewCertPool AppendCertsFromPEM newAuthenticator).
Local Abbreviation certChain :=
  (GetCertChain TrustAnchorsEnvVar CertChainEnvVar CertKeyEnvVar).

(** X12: [generateCSRAndPrivateKey] never panics; it reports a failure to
    monitoring exactly when it returns an error for a non-empty id, once,
    with the reason of the step that failed; an empty id is refused before
    any call, uncounted; and an error never comes with partial output. *)
Theorem X12_generate_accounting (id : string) (w : World) :
  match generate id w with
  | (Return (csrb, keyPem, None), _, cs) =>
      id <> "" /\ init_failures cs = []
  | (Return (csrb, keyPem, Some _), w', cs) =>
      csrb = [] /\ keyPem = [] /\
      ((id = "" /\ cs = [] /\ w' = w) \/
       (id <> "" /\
        exists reason,
          init_failures cs = [MTLSInitFailed reason] /\
          In reason ["prikeygen"; "prikeyenc"; "csr"]))
  | (Panic _, _, _) => False
  end.
Proof.
  generate_cases ecdsa_GenerateKey x509_MarshalECPrivateKey
    x509_CreateCertificateRequest id w; cbn; repeat split; auto;
    right; (split; [assumption|]); eexists; (split; [reflexivity|]); cbn; auto.
Qed.

(** X13: when [generateCSRAndPrivateKey] succeeds, the returned key PEM and
    the returned CSR are for the same freshly generated key: the PEM is an
    EC PRIVATE KEY block over its marshalling, and the CSR was created with
    that key for common name [id] and the single DNS name [id]. *)
Theorem X13_generate_success (id : string) (w : World)
    (csrb keyPem : bytes) (w' : World) (cs : list Call) :
  generate id w = (Return (csrb, keyPem, None), w', cs) ->
  exists key w1 der,
    id <> "" /\
    ecdsa_GenerateKey w = ((key, None), w1) /\
    x509_MarshalECPrivateKey key = (der, None) /\
    keyPem = pem_EncodeToMemory {| Type_ := "EC PRIVATE KEY"; Bytes := der |} /\
    x509_CreateCertificateRequest
      {| Subject := {| CommonName := id |}; DNSNames := [id] |} key w1
      = ((csrb, None), w') /\
    cs = [GenerateKey; MarshalECPrivateKey;
          EncodeToMemory {| Type_ := "EC PRIVATE KEY"; Bytes := der |};
          CreateCertificateRequest
            {| Subject := {| CommonName := id |}; DNSNames := [id] |}].
Proof.
  generate_cases ecdsa_GenerateKey x509_MarshalECPrivateKey
    x509_CreateCertificateRequest id w; intros Hrun; try discriminate Hrun.
  injection Hrun as <- <- <- <-.
  exists key, w1, der. repeat split; assumption.
Qed.

(** X14: each failing step of [generateCSRAndPrivateKey] ends the function
    there: a key generation failure and a CSR creation failure are wrapped
    with a fixed prefix, a marshalling failure is returned as it is, and the
    steps after the failing one are not called. *)
Theorem X14_generate_failures (id : string) (w : World) :
  id <> "" ->
  (forall key cause w1,
     ecdsa_GenerateKey w = ((key, Some cause), w1) ->
     generate id w
       = (Return ([], [], Some ("failed to generate private key: " +:+ cause)),
          w1, [GenerateKey; MTLSInitFailed "prikeygen"])) /\
  (forall key w1 der cause,
     ecdsa_GenerateKey w = ((key, None), w1) ->
     x509_MarshalECPrivateKey key = (der, Some cause) ->
     generate id w
       = (Return ([], [], Some cause),
          w1, [GenerateKey; MarshalECPrivateKey; MTLSInitFailed "prikeyenc"])) /\
  (forall key w1 der csrb cause w2,
     ecdsa_GenerateKey w = ((key, None), w1) ->
     x509_MarshalECPrivateKey key = (der, None) ->
     x509_CreateCertificateRequest
       {| Subject := {| CommonName := id |}; DNSNames := [id] |} key w1
       = ((csrb, Some cause), w2) ->
     generate id w
       = (Return ([], [], Some ("failed to create sidecar csr: " +:+ cause)),
          w2, [GenerateKey; MarshalECPrivateKey;
               EncodeToMemory {| Type_ := "EC PRIVATE KEY"; Bytes := der |};
               CreateCertificateRequest
                 {| Subject := {| CommonName := id |}; DNSNames := [id] |};
               MTLSInitFailed "csr"])).
Proof.
  intros Hid. apply String.eqb_neq in Hid.
  unfold generateCSRAndPrivateKey, bind, emit, invoke, call, ret.
  rewrite Hid. repeat split.
  - intros key cause w1 Hgen. rewrite Hgen. reflexivity.
  - intros key w1 der cause Hgen Hmar. rewrite Hgen, Hmar. reflexivity.
  - intros key w1 der csrb cause w2 Hgen Hmar Hcsr.
    rewrite Hgen, Hmar. cbn. rewrite Hcsr. reflexivity.
Qed.

(** X15: what [GetCertChain] returns without an error is accepted by
    [GetSidecarAuthenticator] without a panic and without touching the
    world.  An authenticator is built exactly when the trust anchors
    variable holds at least one certificate for the pool, from the values of
    the three variables; the key is passed on as it is, empty or not. *)
Theorem X15_bootstrap (env : gmap string string) (addr : string) (w : World)
    (c : option CertChain) :
  certChain env = (c, None) ->
  sidecarAuthenticator addr c w
    = match AppendCertsFromPEM x509_NewCertPool
              (bytes_of_string (os_Getenv env TrustAnchorsEnvVar)) with
      | (pool, true) =>
          (Return (Some (newAuthenticator addr (Some pool)
                           (bytes_of_string (os_Getenv env CertChainEnvVar))
                           (bytes_of_string (os_Getenv env CertKeyEnvVar))
                           generate),
                   None),
           w, [LogInfo "Trust anchors and cert chain extracted successfully"])
      | (_, false) =>
          (Return (None, Some "failed to append PEM root cert to x509 CertPool"),
           w, [])
      end.
Proof.
  unfold Security.GetCertChain; cbv zeta.
  destruct (String.eqb (os_Getenv env TrustAnchorsEnvVar) ""); [discriminate|].
  destruct (String.eqb (os_Getenv env CertChainEnvVar) ""); [discriminate|].
  intros Hc. injection Hc as <-.
  unfold GetSidecarAuthenticator, CertPool; cbv zeta. cbn [RootCA Cert Key].
  destruct (AppendCertsFromPEM x509_NewCertPool
              (bytes_of_string (os_Getenv env TrustAnchorsEnvVar))) as [pool [|]];
    reflexivity.
Qed.

(** X16: what [GetCertChain] returns beside an error is a nil chain, on
    which [GetSidecarAuthenticator] panics before doing anything. *)
Theorem X16_bootstrap_after_error (env : gmap string string) (addr : string)
    (w : World) (c : option CertChain) (e : error) :
  certChain env = (c, Some e) ->
  sidecarAuthenticator addr c w
    = (Panic "invalid memory address or nil pointer dereference", w, []).
Proof.
  unfold Security.GetCertChain; cbv zeta.
  destruct (String.eqb (os_Getenv env TrustAnchorsEnvVar) "");
    [intros Hc; injection Hc as <- _; reflexivity|].
  destruct (String.eqb (os_Getenv env CertChainEnvVar) "");
    [intros Hc; injection Hc as <- _; reflexivity|].
  discriminate.
Qed.

End Runtime.

(** ** The properties at work on the test doubles *)

Import Fixtures RuntimeFixtures.

Lemma X13_generate_success_witness :
  exists key w1 der,
    "orders" <> "" /\
    fakeGenerateKey 2%nat = ((key, None), w1) /\
    fakeMarshal key = (der, None) /\
    bytes_of_string "EC PRIVATE KEY:DER"
      = fakeEncodeToMemory {| Type_ := "EC PRIVATE KEY"; Bytes := der |} /\
    fakeCreate {| Subject := {| CommonName := "orders" |}; DNSNames := ["orders"] |} key w1
      = ((bytes_of_string "orders", None), 0%nat) /\
    (generate "orders" 2%nat).2
      = [GenerateKey; MarshalECPrivateKey;
         EncodeToMemory {| Type_ := "EC PRIVATE KEY"; Bytes := der |};
         CreateCertificateRequest
           {| Subject := {| CommonName := "orders" |}; DNSNames := ["orders"] |}].
Proof.
  apply (X13_generate_success fakeGenerateKey fakeMarshal fakeEncodeToMemory fakeCreate
           "orders" 2%nat (bytes_of_string "orders")
           (bytes_of_string "EC PRIVATE KEY:DER") 0%nat).
  reflexivity.
Defined.

Lemma X14_generate_failures_witness :
  generate "orders" 0%nat
    = (Return ([], [], Some "failed to generate private key: EOF"),
       0%nat, [GenerateKey; MTLSInitFailed "prikeygen"]) /\
  generate "orders" 13%nat
    = (Return ([], [], Some "x509: unknown elliptic curve"),
       12%nat, [GenerateKey; MarshalECPrivateKey; MTLSInitFailed "prikeyenc"]) /\
  generate "orders" 1%nat
    = (Return ([], [], Some "failed to create sidecar csr: EOF"),
       0%nat, [GenerateKey; MarshalECPrivateKey;
               EncodeToMemory {| Type_ := "EC PRIVATE KEY"; Bytes := bytes_of_string "DER" |};
               CreateCertificateRequest
                 {| Subject := {| CommonName := "orders" |}; DNSNames := ["orders"] |};
               MTLSInitFailed "csr"]).
Proof.
  split; [|split].
  - apply (proj1 (X14_generate_failures fakeGenerateKey fakeMarshal fakeEncodeToMemory
                    fakeCreate "orders" 0%nat ltac:(evaluate)) O "EOF" 0%nat).
    evaluate.
  - apply (proj1 (proj2 (X14_generate_failures fakeGenerateKey fakeMarshal
                    fakeEncodeToMemory fakeCreate "orders" 13%nat ltac:(evaluate)))
             13%nat 12%nat [] "x509: unknown elliptic curve"); evaluate.
  - apply (proj2 (proj2 (X14_generate_failures fakeGenerateKey fakeMarshal
                    fakeEncodeToMemory fakeCreate "orders" 1%nat ltac:(evaluate)))
             1%nat 0%nat (bytes_of_string "DER") [] "EOF" 0%nat); evaluate.
Defined.

Lemma X15_bootstrap_witness :
  sidecarAuthenticator "sentry:50001" (certChain envEmptyKey).1 0%nat
    = (Return (Some {| fa_address := "sentry:50001";
                       fa_trustAnchors := Some [bytes_of_string "-----BEGIN CERTIFICATE-----"];
                       fa_cert := bytes_of_string "chain";
                       fa_key := [] |},
               None),
       0%nat, [LogInfo "Trust anchors and cert chain extracted successfully"]).
Proof.
  etransitivity; [|reflexivity].
  apply (X15_bootstrap fakeGenerateKey fakeMarshal fakeEncodeToMemory fakeCreate
             [] fakeAppend fakeNewAuthenticator
             "DAPR_TRUST_ANCHORS" "DAPR_CERT_CHAIN" "DAPR_CERT_KEY"
             envEmptyKey "sentry:50001" 0%nat (certChain envEmptyKey).1
             ltac:(evaluate)).
Defined.

Lemma X16_bootstrap_after_error_witness :
  sidecarAuthenticator "sentry:50001" (certChain ∅).1 0%nat
    = (Panic "invalid memory address or nil pointer dereference", 0%nat, []).
Proof.
  apply (X16_bootstrap_after_error fakeGenerateKey fakeMarshal fakeEncodeToMemory
           fakeCreate [] fakeAppend fakeNewAuthenticator
           "DAPR_TRUST_ANCHORS" "DAPR_CERT_CHAIN" "DAPR_CERT_KEY"
           ∅ "sentry:50001" 0%nat (certChain ∅).1
           "couldn't find trust anchors in environment variable DAPR_TRUST_ANCHORS").
  evaluate.
Defined.

End RuntimeSecurityProps.

(** * Further properties of [GetCertChain] *)

Module SecurityExtra.
Import Security.

Lemma Getenv_insert_ne (env : gmap string string) (k v x : string) :
  x <> k -> os_Getenv (<[k := v]> env) x = os_Getenv env x.
Proof. intros Hne. unfold os_Getenv. now rewrite lookup_insert_ne. Qed.

Lemma Getenv_unset (env : gmap string string) (k x : string) :
  os_Getenv (<[k := ""]> env) x = os_Getenv (delete k env) x.
Proof.
  unfold os_Getenv. destruct (decide (x = k)) as [-> | Hne].
  - now rewrite lookup_insert_eq, lookup_delete_eq.
  - now rewrite lookup_insert_ne, lookup_delete_ne.
Qed.

Lemma bytes_of_string_nil (s : string) : bytes_of_string s = [] -> s = "".
Proof.
  intros Hs. rewrite <- (String.string_of_list_byte_of_string s).
  unfold bytes_of_string in Hs. rewrite Hs. reflexivity.
Qed.

Section GetCertChain.
Variables TrustAnchorsEnvVar CertChainEnvVar CertKeyEnvVar : string.
Implicit Types env : gmap string string.

Local Abbreviation GetCertChain :=
  (GetCertChain TrustAnchorsEnvVar CertChainEnvVar CertKeyEnvVar).

(** X17: [GetCertChain] reads three variables only: setting any other
    variable of the environment does not change its result. *)
Theorem X17_other_variables_ignored env (k v : string) :
  k <> TrustAnchorsEnvVar -> k <> CertChainEnvVar -> k <> CertKeyEnvVar ->
  GetCertChain (<[k := v]> env) = GetCertChain env.
Proof.
  intros H1 H2 H3. unfold Security.GetCertChain.
  rewrite !Getenv_insert_ne by congruence. reflexivity.
Qed.

(** X18: a variable set to the empty string is treated as one that is not
    set at all. *)
Theorem X18_empty_is_unset env (k : string) :
  GetCertChain (<[k := ""]> env) = GetCertChain (delete k env).
Proof.
  unfold Security.GetCertChain. rewrite !Getenv_unset. reflexivity.
Qed.

(** X19: a chain returned by [GetCertChain] has a non-empty root CA and a
    non-empty certificate, and its three fields read back as the values of
    the three variables. *)
Theorem X19_chain_contents env (c : CertChain) (e : option error) :
  GetCertChain env = (Some c, e) ->
  e = None /\
  RootCA c <> [] /\ Cert c <> [] /\
  String.string_of_list_byte (RootCA c) = os_Getenv env TrustAnchorsEnvVar /\
  String.string_of_list_byte (Cert c) = os_Getenv env CertChainEnvVar /\
  String.string_of_list_byte (Key c) = os_Getenv env CertKeyEnvVar.
Proof.
  unfold Security.GetCertChain; cbv zeta.
  destruct (String.eqb_spec (os_Getenv env TrustAnchorsEnvVar) "") as [Ht | Ht];
    [discriminate|].
  destruct (String.eqb_spec (os_Getenv env CertChainEnvVar) "") as [Hc | Hc];
    [discriminate|].
  intros Hrun. injection Hrun as <- <-. cbn [RootCA Cert Key].
  unfold bytes_of_string at 3 4 5.
  rewrite !String.string_of_list_byte_of_string.
  repeat split; try reflexivity; intros Hnil; apply bytes_of_string_nil in Hnil;
    contradiction.
Qed.

(** X20: whether [GetCertChain] fails, and with which error, does not
    depend on the key variable. *)
Theorem X20_key_never_decides env (v : string) :
  CertKeyEnvVar <> TrustAnchorsEnvVar -> CertKeyEnvVar <> CertChainEnvVar ->
  (GetCertChain (<[CertKeyEnvVar := v]> env)).2 = (GetCertChain env).2.
Proof.
  intros H1 H2. unfold Security.GetCertChain; cbv zeta.
  rewrite !(Getenv_insert_ne env CertKeyEnvVar v) by congruence.
  destruct (String.eqb (os_Getenv env TrustAnchorsEnvVar) ""); [reflexivity|].
  destruct (String.eqb (os_Getenv env CertChainEnvVar) ""); reflexivity.
Qed.

End GetCertChain.

(** ** The properties at work on the test doubles *)

Import Fixtures RuntimeFixtures.

Lemma X17_other_variables_ignored_witness :
  certChain (<["PATH" := "/usr/bin"]> envComplete) = certChain envComplete.
Proof.
  apply (X17_other_variables_ignored "DAPR_TRUST_ANCHORS" "DAPR_CERT_CHAIN"
           "DAPR_CERT_KEY" envComplete "PATH" "/usr/bin"); evaluate.
Defined.

Lemma X19_chain_contents_witness :
  exists c,
    certChain envComplete = (Some c, None) /\
    RootCA c <> [] /\ Cert c <> [] /\
    String.string_of_list_byte (RootCA c) = "-----BEGIN CERTIFICATE-----" /\
    String.string_of_list_byte (Cert c) = "chain" /\
    String.string_of_list_byte (Key c) = "key".
Proof.
  exists {| RootCA := bytes_of_string "-----BEGIN CERTIFICATE-----";
            Cert := bytes_of_string "chain"; Key := bytes_of_string "key" |}.
  split; [evaluate|].
  apply (X19_chain_contents "DAPR_TRUST_ANCHORS" "DAPR_CERT_CHAIN" "DAPR_CERT_KEY"
           envComplete _ None).
  evaluate.
Defined.

Lemma X20_key_never_decides_witness :
  (certChain (<["DAPR_CERT_KEY" := ""]> envComplete)).2 = (certChain envComplete).2.
Proof.
  apply (X20_key_never_decides "DAPR_TRUST_ANCHORS" "DAPR_CERT_CHAIN" "DAPR_CERT_KEY"
           envComplete ""); evaluate.
Defined.

End SecurityExtra.
